(** * Response and error classification of [src/http/handlers/response.js]

    A shallow embedding of the two classifiers [responseHandler] and
    [responseErrorHandler] and of their backward-compatible wrappers,
    together with the properties of the specification that concern them.

    JavaScript objects live in a store and are passed around by reference,
    because the error path mutates the error it is given and the
    specification speaks about object identity.  Side effects (console
    output and message display) are recorded in a trace. *)

From Stdlib Require Import ZArith String DecimalString.
From stdpp Require Import gmap strings list fin_maps.

Local Open Scope string_scope.

(** ** Values *)

Abbreviation loc := positive.

(** The JavaScript values the handlers can meet.  Numbers are the integers
    (transport statuses and application codes); objects are references into
    the store. *)
Inductive JsVal : Type :=
  | VUndef
  | VNull
  | VBool (b : bool)
  | VNum (n : Z)
  | VStr (s : string)
  | VRef (l : loc).

Global Instance JsVal_eq_dec : EqDecision JsVal.
Proof. solve_decision. Defined.

(** [a === b]. *)
Definition strict_eq (a b : JsVal) : bool := bool_decide (a = b).

(** ToBoolean. *)
Definition truthy (v : JsVal) : bool :=
  match v with
  | VUndef | VNull => false
  | VBool b => b
  | VNum n => negb (n =? 0)%Z
  | VStr s => negb (String.eqb s EmptyString)
  | VRef _ => true
  end.

(** [a || b] and [a && b] on values that are already evaluated. *)
Definition js_or (a b : JsVal) : JsVal := if truthy a then a else b.

Definition nullish (v : JsVal) : bool :=
  match v with VUndef | VNull => true | _ => false end.

(** ToString, as a template literal and a computed property key apply it;
    a number is printed in decimal, as JavaScript prints an integer below
    [10^21]. *)
Definition to_string (v : JsVal) : string :=
  match v with
  | VUndef => "undefined"
  | VNull => "null"
  | VBool true => "true"
  | VBool false => "false"
  | VNum n => NilZero.string_of_int (Z.to_int n)
  | VStr s => s
  | VRef _ => "[object Object]"
  end.

(** [s.includes(sub)]. *)
Fixpoint includes (sub s : string) : bool :=
  String.prefix sub s ||
  match s with
  | EmptyString => false
  | String _ s' => includes sub s'
  end.

(** ** Store, trace and the monad of handler bodies *)

Abbreviation obj := (gmap string JsVal).
Abbreviation heap := (gmap loc (gmap string JsVal)).

(** [v.k] on a value that is not [undefined] or [null]. *)
Definition field (h : heap) (v : JsVal) (k : string) : JsVal :=
  match v with
  | VRef l => default VUndef (h !! l ≫= (.!! k))
  | _ => VUndef
  end.

(** [console.log], [console.dir] and the invocation of a message-display
    handler are the observable side effects. *)
Inductive event (H : Type) : Type :=
  | ConsoleLog (v : JsVal)
  | ConsoleDir (v : JsVal)
  | Display (f : H) (msg : JsVal).
Arguments ConsoleLog {H} v.
Arguments ConsoleDir {H} v.
Arguments Display {H} f msg.

Record world (H : Type) : Type := World { store : heap; trace : list (event H) }.
Arguments World {H} store trace.
Arguments store {H} w.
Arguments trace {H} w.

(** The only exception the handlers raise by themselves is the [TypeError]
    of a property access on [undefined] or [null]. *)
Inductive exn : Type := TypeError.

Inductive completion (A : Type) : Type :=
  | Normal (a : A)
  | Throw (e : exn).
Arguments Normal {A} a.
Arguments Throw {A} e.

(** What a handler hands back to the promise chain: a plain value, which
    resolves, or [Promise.reject(reason)]. *)
Inductive settled : Type :=
  | Value (v : JsVal)
  | Rejected (reason : JsVal).

Global Instance settled_eq_dec : EqDecision settled.
Proof. solve_decision. Defined.

Definition M (H A : Type) : Type := world H → completion A * world H.

Definition ret {H A} (a : A) : M H A := λ w, (Normal a, w).

Definition bind {H A B} (m : M H A) (k : A → M H B) : M H B :=
  λ w, match m w with
       | (Normal a, w') => k a w'
       | (Throw e, w') => (Throw e, w')
       end.

Definition throw {H A} (e : exn) : M H A := λ w, (Throw e, w).

Notation "'let*' x := m 'in' k" := (bind m (λ x, k))
  (at level 10, x name, m at level 100, k at level 200).
Notation "m ;;; k" := (bind m (λ _, k))
  (at level 100, k at level 200, right associativity).

Definition get_store {H} : M H heap := λ w, (Normal (store w), w).

Definition emit {H} (e : event H) : M H unit :=
  λ w, (Normal tt, World (store w) (trace w ++ [e])).

Definition when {H} (c : bool) (m : M H unit) : M H unit :=
  if c then m else ret tt.

(** [v.k]: a [TypeError] on [undefined] and [null], the property otherwise
    ([undefined] when the object has none of that name; none of the names
    the handlers read is a property of a primitive). *)
Definition member {H} (v : JsVal) (k : string) : M H JsVal :=
  if nullish v then throw TypeError
  else let* h := get_store in ret (field h v k).

Definition set_property (h : heap) (l : loc) (k : string) (x : JsVal) : heap :=
  <[l := <[k := x]> (default ∅ (h !! l))]> h.

(** [v.k = x] in strict mode (the file is an ES module): the object is
    updated in place; there is no property to create on a primitive. *)
Definition assign {H} (v : JsVal) (k : string) (x : JsVal) : M H unit :=
  match v with
  | VRef l => λ w, (Normal tt, World (set_property (store w) l k x) (trace w))
  | _ => throw TypeError
  end.

(** Allocation of a new object. *)
Definition alloc {H} (o : obj) : M H JsVal :=
  λ w, let l := fresh (dom (store w)) in
       (Normal (VRef l), World (<[l := o]> (store w)) (trace w)).

(** Modelled from the spec: [createError] of the request library (imported
    from [axios/lib/core/createError], not part of the sources) "constructs a
    standardized error value carrying message, request configuration, code,
    request, and response".  It is a new object each time
    ([new Error(message)] in the library). *)
Definition standardized (message config code request response : JsVal) : obj :=
  <["message" := message]> (<["config" := config]> (<["code" := code]>
    (<["request" := request]> (<["response" := response]> ∅)))).

Definition createError {H} (message config code request response : JsVal)
  : M H JsVal :=
  alloc (standardized message config code request response).

(** ** Collaborators

    The helpers the handlers import from files that are not part of the
    sources are taken as parameters: the status table (only its [OK] entry is
    read), the two predicates on a body, the message derivation, the table of
    per-code display handlers and the default display handler.  The
    predicates and [getMessage] read the store and have no effect; a display
    handler shows its message and has no other effect. *)
Class Collaborators : Type := {
  Handler : Type;
  errorMessage : Handler;
  codeHandlers : gmap string Handler;
  HTTP_STATUS_CODE_OK : JsVal;
  isStandardResponseBody : heap → JsVal → bool;
  isRightResponse : heap → JsVal → bool;
  getMessage : heap → JsVal → JsVal → JsVal → JsVal;
}.

Abbreviation Eff := (M Handler).

Section Handlers.
Context `{C : Collaborators}.

(** [handler(errorMsg)]. *)
Definition invoke (f : Handler) (msg : JsVal) : Eff unit := emit (Display f msg).

(** [(data && data.code) || status]. *)
Definition code_or_status (data status : JsVal) : Eff JsVal :=
  let* c := (if truthy data then member data "code" else ret data) in
  ret (js_or c status).

Definition responseHandler (response : JsVal) (allResponse : bool) : Eff settled :=
  let* data := member response "data" in
  let* status := member response "status" in
  let* statusText := member response "statusText" in
  let* request := member response "request" in
  let* config := member response "config" in
  let* all := member config "all" in
  let* external := member config "external" in
  let* debug := member config "debug" in
  let* handleError := member config "handleError" in
  let* ignoreMsg := member config "ignoreMsg" in
  when (truthy debug || negb (strict_eq status HTTP_STATUS_CODE_OK))
       (emit (ConsoleLog response)) ;;;
  if strict_eq status HTTP_STATUS_CODE_OK then
    if truthy all then ret (Value response)
    else
      let* h := get_store in
      if truthy external || negb (isStandardResponseBody h data) then
        ret (Value (if allResponse then response else data))
      else if isRightResponse h data then
        if allResponse then ret (Value response)
        else let* payload := member data "data" in ret (Value payload)
      else
        let* code := member data "code" in
        let handler := default errorMessage (codeHandlers !! to_string code) in
        let errorMsg := getMessage h data status statusText in
        if negb (truthy handleError) then
          when (negb (truthy ignoreMsg)) (invoke handler errorMsg) ;;;
          if allResponse then ret (Value response)
          else
            let* c := code_or_status data status in
            let* e := createError errorMsg config c request response in
            ret (Rejected e)
        else
          if allResponse then ret (Value response)
          else
            let* c := code_or_status data status in
            let* e := createError errorMsg config c request response in
            ret (Rejected e)
  else
    let* c := code_or_status data status in
    let* e := createError
                (VStr ("Unexpected http status code: " ++ to_string status))
                config c request response in
    ret (Rejected e).

(** [res === undefined] on what a handler returned: a promise is an object. *)
Definition is_undefined (r : settled) : bool :=
  match r with Value VUndef => true | _ => false end.

Definition needReturnResponseHandler (response : JsVal) : Eff settled :=
  let* res := responseHandler response true in
  if negb (is_undefined res) then ret res
  else ret (Value response).

Definition responseErrorHandler (error : JsVal) : Eff settled :=
  let* config := member error "config" in
  let* request := member error "request" in
  let* response := member error "response" in
  let* debug := member config "debug" in
  let* handleError := member config "handleError" in
  let* data := member response "data" in
  let* status := member response "status" in
  let* statusText := member response "statusText" in
  when (truthy debug) (emit (ConsoleDir error)) ;;;
  if truthy config then
    let* h := get_store in
    let* message := member error "message" in
    let errorMsg :=
      js_or (js_or (getMessage h data status statusText) message)
            (VStr "Uncaught Error (in ibuild/http)") in
    let* message' := member error "message" in
    when (negb (truthy message')) (assign error "message" errorMsg) ;;;
    let* code := member error "code" in
    when (negb (truthy code) && truthy status) (assign error "code" status) ;;;
    if truthy handleError then ret (Rejected error)
    else
      invoke errorMessage errorMsg ;;;
      let* c := code_or_status data status in
      let* e := createError errorMsg config c request response in
      ret (Rejected e)
  else ret (Value VUndef).

Definition needReturnResponseErrorHandler (error : JsVal) : Eff settled :=
  let* res := responseErrorHandler error in
  if negb (is_undefined res) then ret res
  else ret (Rejected error).

End Handlers.

(** ** A concrete set of collaborators *)

(** [k in v] for an object [v]. *)
Definition has_property (h : heap) (v : JsVal) (k : string) : bool :=
  match v with
  | VRef l => bool_decide (is_Some (h !! l ≫= (.!! k)))
  | _ => false
  end.

(** One instance of the collaborators, used to run the handlers on concrete
    inputs (the general properties below hold for every instance): [200] is
    the OK status, a body is a standard envelope when it is an object with
    the four envelope properties, it is right when [success] is [true], the
    message is the envelope's or else the status text, and code [403] has a
    handler of its own. *)
Definition demo : Collaborators := {|
  Handler := string;
  errorMessage := "errorMessage";
  codeHandlers := {[ "403" := "forbidden" ]};
  HTTP_STATUS_CODE_OK := VNum 200;
  isStandardResponseBody := λ h d,
    has_property h d "code" && has_property h d "data"
    && has_property h d "message" && has_property h d "success";
  isRightResponse := λ h d, strict_eq (field h d "success") (VBool true);
  getMessage := λ h d status statusText, js_or (field h d "message") statusText;
|}.


(** Concrete stores: a response at location 1 with its body at 2, its
    [config] at 3 and its request at 4; and an error at location 1 with its
    [config] at 3, its request at 4 and a status-500 response at 5. *)
Definition response_store (status : Z) (data : JsVal) (body config : obj) : heap :=
  {[ 1%positive := {[ "data" := data; "status" := VNum status;
                      "statusText" := VStr EmptyString;
                      "request" := VRef 4; "config" := VRef 3 ]};
     2%positive := body;
     3%positive := config;
     4%positive := ∅ ]}.

Definition envelope (code : Z) (success : bool) (message : string) : obj :=
  {[ "code" := VNum code; "data" := VNull;
     "message" := VStr message; "success" := VBool success ]}.

Definition error_store (error config : obj) : heap :=
  {[ 1%positive := error;
     3%positive := config;
     4%positive := ∅;
     5%positive := {[ "data" := VUndef; "status" := VNum 500;
                      "statusText" := VStr "Internal Server Error" ]} ]}.

(** ** Running the handlers symbolically *)

Arguments field : simpl never.
Arguments member : simpl never.
Arguments code_or_status : simpl never.
Arguments createError : simpl never.
Arguments set_property : simpl never.
Arguments bind : simpl never.

(** Number of message displays in a trace. *)
Definition is_display {H} (e : event H) : bool :=
  match e with Display _ _ => true | _ => false end.

Definition displays {H} (t : list (event H)) : nat :=
  length (List.filter is_display t).

(** The value of [(data && data.code) || status] in a store. *)
Definition code_or_status_of (h : heap) (data status : JsVal) : JsVal :=
  js_or (if truthy data then field h data "code" else data) status.

(** The store after lines 166-172 of the error path: the error at [l] gets
    the derived message when its own is empty, then the status as its code
    when it has none and the status is truthy. *)
Definition normalized (h : heap) (l : loc) (errorMsg status : JsVal) : heap :=
  let h1 := if truthy (field h (VRef l) "message") then h
            else set_property h l "message" errorMsg in
  if negb (truthy (field h1 (VRef l) "code")) && truthy status
  then set_property h1 l "code" status
  else h1.

Section Properties.
Context `{C : Collaborators}.

Implicit Types (w : world Handler) (h : heap) (l : loc) (v : JsVal) (k : string).

Lemma bind_member {A} v k (f : JsVal → Eff A) w :
  nullish v = false → bind (member v k) f w = f (field (store w) v k) w.
Proof. intros Hv. unfold bind, member. rewrite Hv. reflexivity. Qed.

Lemma bind_member_nullish {A} v k (f : JsVal → Eff A) w :
  nullish v = true → bind (member v k) f w = (Throw TypeError, w).
Proof. intros Hv. unfold bind, member. rewrite Hv. reflexivity. Qed.

Lemma truthy_not_nullish v : truthy v = true → nullish v = false.
Proof. destruct v; simpl; congruence. Qed.

Lemma field_primitive h v k : (∀ l, v ≠ VRef l) → field h v k = VUndef.
Proof. destruct v; try reflexivity. intros Hv. destruct (Hv l eq_refl). Qed.

Lemma truthy_field h v k : truthy (field h v k) = true → truthy v = true.
Proof.
  destruct v; try reflexivity;
    (rewrite field_primitive by (intros l'; discriminate)); discriminate.
Qed.

Lemma field_is_Some h l k : field h (VRef l) k ≠ VUndef → is_Some (h !! l).
Proof.
  unfold field. destruct (h !! l) as [o|]; [eauto | simpl; congruence].
Qed.

Lemma bind_code_or_status {A} (data status : JsVal) (f : JsVal → Eff A) w :
  bind (code_or_status data status) f w
  = f (code_or_status_of (store w) data status) w.
Proof.
  unfold code_or_status, code_or_status_of.
  destruct (truthy data) eqn:Hd; [|reflexivity].
  unfold bind at 1.
  rewrite bind_member by (apply truthy_not_nullish; exact Hd).
  reflexivity.
Qed.

Lemma code_or_status_of_truthy h (data status : JsVal) :
  code_or_status_of h data status
  = if truthy data && truthy (field h data "code")
    then field h data "code" else status.
Proof.
  unfold code_or_status_of, js_or.
  destruct (truthy data) eqn:Hd; simpl; [reflexivity|].
  rewrite Hd. reflexivity.
Qed.

Lemma code_or_status_of_code h (data status : JsVal) :
  code_or_status_of h data status
  = if truthy (field h data "code") then field h data "code" else status.
Proof.
  rewrite code_or_status_of_truthy.
  destruct (truthy (field h data "code")) eqn:Hc.
  - rewrite (truthy_field _ _ _ Hc). reflexivity.
  - rewrite andb_false_r. reflexivity.
Qed.

Lemma bind_createError {A} (m c k' rq rs : JsVal) (f : JsVal → Eff A) w :
  bind (createError m c k' rq rs) f w
  = f (VRef (fresh (dom (store w))))
      (World (<[fresh (dom (store w)) := standardized m c k' rq rs]> (store w))
             (trace w)).
Proof. reflexivity. Qed.

Lemma field_standardized h l (m c k' rq rs : JsVal) :
  let h' := <[l := standardized m c k' rq rs]> h in
  field h' (VRef l) "message" = m ∧ field h' (VRef l) "config" = c ∧
  field h' (VRef l) "code" = k' ∧ field h' (VRef l) "request" = rq ∧
  field h' (VRef l) "response" = rs.
Proof.
  unfold field, standardized. simpl. rewrite lookup_insert_eq. simpl.
  repeat split; by simplify_map_eq.
Qed.

Lemma strict_eq_true (a b : JsVal) : a = b → strict_eq a b = true.
Proof. intros ->. apply bool_decide_eq_true_2. reflexivity. Qed.

Lemma strict_eq_false (a b : JsVal) : a ≠ b → strict_eq a b = false.
Proof. apply bool_decide_eq_false_2. Qed.

Lemma prefix_refl (a : string) : String.prefix a a = true.
Proof.
  induction a as [|c a IH]; simpl; [reflexivity|].
  destruct (Ascii.ascii_dec c c); [exact IH | congruence].
Qed.

Lemma includes_append (pre sub : string) : includes sub (pre +:+ sub) = true.
Proof.
  induction pre as [|c pre IH]; simpl.
  - change (EmptyString +:+ sub) with sub.
    destruct sub as [|c' sub]; [reflexivity|].
    unfold includes; fold includes. rewrite prefix_refl. reflexivity.
  - rewrite IH. apply orb_true_r.
Qed.

Lemma bind_ret {A B} (a : A) (f : A → Eff B) w : bind (ret a) f w = f a w.
Proof. reflexivity. Qed.

Lemma bind_get_store {A} (f : heap → Eff A) w :
  bind get_store f w = f (store w) w.
Proof. reflexivity. Qed.

Lemma bind_emit {A} (e : event Handler) (f : unit → Eff A) w :
  bind (emit e) f w = f tt (World (store w) (trace w ++ [e])).
Proof. reflexivity. Qed.

Lemma bind_invoke {A} (g : Handler) (msg : JsVal) (f : unit → Eff A) w :
  bind (invoke g msg) f w = f tt (World (store w) (trace w ++ [Display g msg])).
Proof. reflexivity. Qed.

Lemma bind_when_true {A} (m : Eff unit) (f : unit → Eff A) w :
  bind (when true m) f w = bind m f w.
Proof. reflexivity. Qed.

Lemma bind_when_false {A} (m : Eff unit) (f : unit → Eff A) w :
  bind (when false m) f w = f tt w.
Proof. reflexivity. Qed.

Lemma bind_assign {A} l k (x : JsVal) (f : unit → Eff A) w :
  bind (assign (VRef l) k x) f w
  = f tt (World (set_property (store w) l k x) (trace w)).
Proof. reflexivity. Qed.

(** Uses what is known about the flags and the tests. *)
Ltac rewrite_bools :=
  repeat match goal with
         | H : _ = true |- _ => rewrite H
         | H : _ = false |- _ => rewrite H
         end.

(** One step of a handler body on a symbolic input: the statement at the
    head is run, by case analysis where its outcome is not determined. *)
Ltac step :=
  lazymatch goal with
  | |- context [bind (member ?v ?k) _ _] =>
      first
        [ rewrite bind_member by (reflexivity || eassumption)
        | rewrite bind_member_nullish by eassumption
        | let H := fresh "Hnullish" in
          destruct (nullish v) eqn:H;
          [ rewrite bind_member_nullish by exact H
          | rewrite bind_member by exact H ] ]
  | |- context [bind (code_or_status _ _) _ _] => rewrite bind_code_or_status
  | |- context [bind (createError _ _ _ _ _) _ _] => rewrite bind_createError
  | |- context [bind (ret _) _ _] => rewrite bind_ret
  | |- context [bind get_store _ _] => rewrite bind_get_store
  | |- context [bind (emit _) _ _] => rewrite bind_emit
  | |- context [bind (invoke _ _) _ _] => rewrite bind_invoke
  | |- context [bind (assign (VRef _) _ _) _ _] => rewrite bind_assign
  | |- context [bind (when true _) _ _] => rewrite bind_when_true
  | |- context [bind (when false _) _ _] => rewrite bind_when_false
  | |- context [bind (when ?c _) _ _] => destruct c eqn:?
  | |- context [(if ?c then _ else _) _] => destruct c eqn:?
  end;
  cbv beta; cbn [store trace]; rewrite_bools; cbn [negb orb andb].

Ltac run := repeat step; unfold ret.

(** Reads the ten destructured properties of a response whose [config] is
    neither [undefined] nor [null]. *)
Ltac enter_handler :=
  repeat (rewrite bind_member by (reflexivity || eassumption); cbv beta).

(** The whole effect of the branch for an unexpected transport status. *)
Lemma responseHandler_not_ok_run w l (allResponse : bool) :
  let response := VRef l in
  let data := field (store w) response "data" in
  let status := field (store w) response "status" in
  let config := field (store w) response "config" in
  let request := field (store w) response "request" in
  let l' := fresh (dom (store w)) in
  nullish config = false →
  status ≠ HTTP_STATUS_CODE_OK →
  responseHandler response allResponse w
  = (Normal (Rejected (VRef l')),
     World (<[l' := standardized
                      (VStr ("Unexpected http status code: " +:+ to_string status))
                      config (code_or_status_of (store w) data status)
                      request response]> (store w))
           (trace w ++ [ConsoleLog response])).
Proof.
  intros response data status config request l' Hc Hs.
  unfold responseHandler. enter_handler.
  fold data status config request.
  rewrite (strict_eq_false _ _ Hs), orb_true_r.
  run. reflexivity.
Qed.

(** C6: a response whose transport status is a number other than the OK code
    is rejected with a standardized error whose message is
    "Unexpected http status code: " followed by that number, so the message
    contains the number; for status 500 it is
    "Unexpected http status code: 500", whatever the flags. *)
Theorem responseHandler_unexpected_status_message
    w l (allResponse : bool) (n : Z) :
  let response := VRef l in
  field (store w) response "status" = VNum n →
  nullish (field (store w) response "config") = false →
  VNum n ≠ HTTP_STATUS_CODE_OK →
  ∃ l' w' (message : string),
    responseHandler response allResponse w = (Normal (Rejected (VRef l')), w')
    ∧ field (store w') (VRef l') "message" = VStr message
    ∧ message = "Unexpected http status code: " +:+ to_string (VNum n)
    ∧ includes (to_string (VNum n)) message = true
    ∧ (n = 500%Z → message = "Unexpected http status code: 500").
Proof.
  cbv zeta. intros Hn Hc Hs.
  rewrite <- Hn in Hs.
  pose proof (responseHandler_not_ok_run w l allResponse Hc Hs) as Hrun.
  cbv zeta in Hrun. rewrite Hn in Hrun.
  eexists _, _, _. split; [exact Hrun|]. cbn [store].
  split; [apply field_standardized|].
  split; [reflexivity|].
  split.
  - apply includes_append.
  - intros ->. reflexivity.
Qed.

(** C10: for a response with an unexpected transport status, the code of the
    rejected standardized error is [data.code] when the body and its code
    are both truthy, and the transport status otherwise (a body whose code
    is [0] therefore yields the status). *)
Theorem responseHandler_unexpected_status_code w l (allResponse : bool) :
  let response := VRef l in
  let data := field (store w) response "data" in
  let status := field (store w) response "status" in
  nullish (field (store w) response "config") = false →
  status ≠ HTTP_STATUS_CODE_OK →
  ∃ l' w',
    responseHandler response allResponse w = (Normal (Rejected (VRef l')), w')
    ∧ field (store w') (VRef l') "code"
      = (if truthy data && truthy (field (store w) data "code")
         then field (store w) data "code" else status)
    ∧ (field (store w) data "code" = VNum 0 →
       field (store w') (VRef l') "code" = status).
Proof.
  cbv zeta. intros Hc Hs.
  pose proof (responseHandler_not_ok_run w l allResponse Hc Hs) as Hrun.
  cbv zeta in Hrun.
  eexists _, _. split; [exact Hrun|]. cbn [store].
  match goal with
  | |- context [<[?l' := standardized ?m ?c ?k' ?rq ?rs]> ?h] =>
      destruct (field_standardized h l' m c k' rq rs) as (_ & _ & Hk & _)
  end.
  rewrite Hk, code_or_status_of_truthy.
  split; [reflexivity|].
  intros ->. rewrite andb_false_r. reflexivity.
Qed.

(** With [allResponse] set, whatever [responseHandler] returns is the
    response it was given or a rejected promise. *)
Lemma responseHandler_true_cases w (response : JsVal) (r : settled) w' :
  responseHandler response true w = (Normal r, w') →
  nullish response = false ∧ (r = Value response ∨ ∃ e, r = Rejected e).
Proof.
  unfold responseHandler.
  destruct (nullish response) eqn:Hr;
    [rewrite bind_member_nullish by exact Hr; discriminate|].
  run; intros [= <- <-]; eauto.
Qed.

Lemma needReturnResponseHandler_eq w (response : JsVal) :
  needReturnResponseHandler response w = responseHandler response true w.
Proof.
  unfold needReturnResponseHandler, bind.
  destruct (responseHandler response true w) as [[r|e] w'] eqn:Hrun;
    [|reflexivity].
  apply responseHandler_true_cases in Hrun as [Hr [-> | [e ->]]];
    [|reflexivity].
  destruct response; try discriminate; reflexivity.
Qed.

(** C3 (as amended): on an OK-status response whose [all] and [external]
    flags are unset and whose body is a standard envelope (an object) that is
    not right, [responseHandler] without [allResponse] rejects with a new
    standardized error whose code is [data.code] when that is truthy and the
    status otherwise.  Nothing is assumed about [handleError]. *)
Theorem responseHandler_failure_rejects w l :
  let response := VRef l in
  let data := field (store w) response "data" in
  let status := field (store w) response "status" in
  let config := field (store w) response "config" in
  status = HTTP_STATUS_CODE_OK →
  nullish config = false →
  truthy (field (store w) config "all") = false →
  truthy (field (store w) config "external") = false →
  nullish data = false →
  isStandardResponseBody (store w) data = true →
  isRightResponse (store w) data = false →
  ∃ l' w',
    responseHandler response false w = (Normal (Rejected (VRef l')), w')
    ∧ store w !! l' = None
    ∧ field (store w') (VRef l') "code"
      = (if truthy (field (store w) data "code")
         then field (store w) data "code" else status)
    ∧ (field (store w) data "code" = VNum 0 →
       field (store w') (VRef l') "code" = status).
Proof.
  cbv zeta. intros Hs Hc Hall Hext Hd Hstd Hright.
  unfold responseHandler. enter_handler.
  rewrite (strict_eq_true _ _ Hs), Hall, Hext. cbn [negb orb].
  run;
    (eexists _, _; split; [reflexivity|]; cbn [store];
     split; [apply (not_elem_of_dom (D := gset loc)), is_fresh|];
     match goal with
     | |- context [<[?l' := standardized ?m ?c ?k' ?rq ?rs]> ?h] =>
         destruct (field_standardized h l' m c k' rq rs) as (_ & _ & -> & _)
     end;
     rewrite code_or_status_of_code;
     split; [reflexivity | intros ->; reflexivity]).
Qed.

(** C4: on an OK-status response whose body is a standard envelope (an
    object) that is not right, [responseHandler] with [allResponse] returns
    the response itself, a plain value and not a rejected promise, and
    leaves the store as it was.  Nothing is assumed about [handleError]. *)
Theorem responseHandler_failure_allResponse w l :
  let response := VRef l in
  let data := field (store w) response "data" in
  let status := field (store w) response "status" in
  let config := field (store w) response "config" in
  status = HTTP_STATUS_CODE_OK →
  nullish config = false →
  nullish data = false →
  isStandardResponseBody (store w) data = true →
  isRightResponse (store w) data = false →
  ∃ w',
    responseHandler response true w = (Normal (Value response), w')
    ∧ store w' = store w.
Proof.
  cbv zeta. intros Hs Hc Hd Hstd Hright.
  unfold responseHandler. enter_handler.
  rewrite (strict_eq_true _ _ Hs).
  run; eexists; split; reflexivity.
Qed.

(** C7 (as amended): on an OK-status response whose body fails the
    standard-envelope check, [responseHandler] returns the raw body when
    neither the [all] flag nor [allResponse] is set, and the response itself
    otherwise. *)
Theorem responseHandler_nonstandard_body w l (allResponse : bool) :
  let response := VRef l in
  let data := field (store w) response "data" in
  let status := field (store w) response "status" in
  let config := field (store w) response "config" in
  status = HTTP_STATUS_CODE_OK →
  nullish config = false →
  isStandardResponseBody (store w) data = false →
  ∃ w',
    responseHandler response allResponse w
    = (Normal (Value (if truthy (field (store w) config "all") || allResponse
                      then response else data)), w')
    ∧ store w' = store w.
Proof.
  cbv zeta. intros Hs Hc Hstd.
  unfold responseHandler. enter_handler.
  rewrite (strict_eq_true _ _ Hs).
  run; rewrite ?orb_true_r in *; try discriminate;
    destruct allResponse; eexists; split; reflexivity.
Qed.

(** C9: [needReturnResponseHandler] returns exactly what
    [responseHandler(response, true)] returns, on every input; and on a
    response object that carries a [config], the envelope check accepting
    neither [undefined] nor [null], that is a defined value: the response
    itself or a rejected promise. *)
Theorem needReturnResponseHandler_no_fallback :
  (∀ w (response : JsVal),
     needReturnResponseHandler response w = responseHandler response true w)
  ∧
  (∀ w l,
     let response := VRef l in
     let data := field (store w) response "data" in
     let config := field (store w) response "config" in
     nullish config = false →
     (isStandardResponseBody (store w) data = true → nullish data = false) →
     ∃ r w',
       responseHandler response true w = (Normal r, w')
       ∧ (r = Value response ∨ ∃ e, r = Rejected e)
       ∧ is_undefined r = false
       ∧ needReturnResponseHandler response w = (Normal r, w')).
Proof.
  split; [apply needReturnResponseHandler_eq|].
  cbv zeta. intros w l Hc Hobj.
  assert (∃ r w', responseHandler (VRef l) true w = (Normal r, w'))
    as (r & w' & Hrun).
  { unfold responseHandler. enter_handler.
    run; try (eexists _, _; reflexivity);
      match goal with
      | H : (_ || negb (isStandardResponseBody _ _))%bool = false |- _ =>
          apply orb_false_elim in H as [_ H];
          apply negb_false_iff, Hobj in H; discriminate
      end. }
  exists r, w'. split; [exact Hrun|].
  rewrite needReturnResponseHandler_eq.
  destruct (responseHandler_true_cases _ _ _ _ Hrun) as [_ Hcases].
  repeat split; [exact Hcases | | exact Hrun].
  destruct Hcases as [-> | [e ->]]; reflexivity.
Qed.

(** *** The error path *)

Lemma field_set_property_eq h l k (x : JsVal) :
  field (set_property h l k x) (VRef l) k = x.
Proof.
  unfold field, set_property. rewrite lookup_insert_eq. simpl.
  rewrite lookup_insert_eq. reflexivity.
Qed.

Lemma field_set_property_ne h l k k' (x : JsVal) :
  k ≠ k' → field (set_property h l k x) (VRef l) k' = field h (VRef l) k'.
Proof.
  intros Hk. unfold field, set_property. rewrite lookup_insert_eq. simpl.
  rewrite lookup_insert_ne by exact Hk.
  destruct (h !! l) as [o|]; reflexivity.
Qed.

Lemma lookup_set_property_ne h l l2 k (x : JsVal) :
  l2 ≠ l → set_property h l k x !! l2 = h !! l2.
Proof. intros Hl. unfold set_property. by rewrite lookup_insert_ne. Qed.

Lemma lookup_set_property_None h l l2 k (x : JsVal) :
  set_property h l k x !! l2 = None → h !! l2 = None.
Proof.
  unfold set_property. intros Hl.
  apply lookup_insert_None in Hl as [Hl _]. exact Hl.
Qed.

(** C8: when the error has no [config], or no [response], the destructuring
    at the head of [responseErrorHandler] throws a [TypeError] before
    anything else happens (the store and the trace are as they were), and so
    does [needReturnResponseErrorHandler]: neither returns a value or a
    rejected promise. *)
Theorem responseErrorHandler_throws_without_config_or_response
    w (error : JsVal) :
  nullish (field (store w) error "config") = true
  ∨ nullish (field (store w) error "response") = true →
  responseErrorHandler error w = (Throw TypeError, w)
  ∧ needReturnResponseErrorHandler error w = (Throw TypeError, w).
Proof.
  intros Habsent.
  assert (responseErrorHandler error w = (Throw TypeError, w)) as Hthrow.
  { unfold responseErrorHandler.
    destruct (nullish error) eqn:He;
      [rewrite bind_member_nullish by exact He; reflexivity|].
    do 3 step.
    destruct (nullish (field (store w) error "config")) eqn:Hc;
      [rewrite bind_member_nullish by exact Hc; reflexivity|].
    destruct Habsent as [Habsent | Habsent]; [discriminate|].
    do 3 step. reflexivity. }
  split; [exact Hthrow|].
  unfold needReturnResponseErrorHandler, bind. rewrite Hthrow. reflexivity.
Qed.

Lemma normalized_message h l (m status : JsVal) :
  field (normalized h l m status) (VRef l) "message"
  = if truthy (field h (VRef l) "message") then field h (VRef l) "message" else m.
Proof.
  unfold normalized.
  destruct (truthy (field h (VRef l) "message")) eqn:Hm;
    match goal with |- context [if ?c then _ else _] => destruct c end;
    rewrite ?field_set_property_ne, ?field_set_property_eq by done;
    reflexivity.
Qed.

Lemma normalized_code h l (m status : JsVal) :
  field (normalized h l m status) (VRef l) "code"
  = if negb (truthy (field h (VRef l) "code")) && truthy status
    then status else field h (VRef l) "code".
Proof.
  unfold normalized.
  destruct (truthy (field h (VRef l) "message"));
    rewrite ?field_set_property_ne by done;
    destruct (negb (truthy (field h (VRef l) "code")) && truthy status);
    rewrite ?field_set_property_ne, ?field_set_property_eq by done;
    reflexivity.
Qed.

Lemma normalized_other_property h l (m status : JsVal) k :
  k ≠ "message" → k ≠ "code" →
  field (normalized h l m status) (VRef l) k = field h (VRef l) k.
Proof.
  intros Hm Hk. unfold normalized.
  destruct (truthy (field h (VRef l) "message"));
    match goal with |- context [if ?c then _ else _] => destruct c end;
    rewrite ?field_set_property_ne by done; reflexivity.
Qed.

Lemma normalized_other_object h l (m status : JsVal) l2 :
  l2 ≠ l → normalized h l m status !! l2 = h !! l2.
Proof.
  intros Hl. unfold normalized.
  destruct (truthy (field h (VRef l) "message"));
    match goal with |- context [if ?c then _ else _] => destruct c end;
    rewrite ?lookup_set_property_ne by done; reflexivity.
Qed.

Lemma normalized_None h l (m status : JsVal) l2 :
  normalized h l m status !! l2 = None → h !! l2 = None.
Proof.
  unfold normalized.
  destruct (truthy (field h (VRef l) "message"));
    match goal with |- context [if ?c then _ else _] => destruct c end;
    intros Hl; repeat apply lookup_set_property_None in Hl; exact Hl.
Qed.

(** The whole effect of the error path past its guard. *)
Lemma responseErrorHandler_run w l :
  let error := VRef l in
  let h := store w in
  let config := field h error "config" in
  let request := field h error "request" in
  let response := field h error "response" in
  let data := field h response "data" in
  let status := field h response "status" in
  let statusText := field h response "statusText" in
  let errorMsg :=
    js_or (js_or (getMessage h data status statusText) (field h error "message"))
          (VStr "Uncaught Error (in ibuild/http)") in
  let logged : list (event Handler) :=
    if truthy (field h config "debug") then [ConsoleDir error] else [] in
  let h2 := normalized h l errorMsg status in
  truthy config = true →
  nullish response = false →
  responseErrorHandler error w
  = if truthy (field h config "handleError")
    then (Normal (Rejected error), World h2 (trace w ++ logged)%list)
    else (Normal (Rejected (VRef (fresh (dom h2)))),
          World (<[fresh (dom h2) := standardized errorMsg config
                     (code_or_status_of h2 data status) request response]> h2)
                (trace w ++ logged ++ [Display errorMessage errorMsg])%list).
Proof.
  destruct w as [h t]. cbv zeta. cbn [store trace]. intros Hc Hr.
  pose proof (truthy_not_nullish _ Hc) as Hcn.
  unfold responseErrorHandler.
  run; unfold normalized;
    repeat match goal with
           | H : negb _ = true |- _ => apply negb_true_iff in H
           | H : negb _ = false |- _ => apply negb_false_iff in H
           end;
    rewrite_bools; cbn [negb andb]; rewrite_bools;
    rewrite ?app_nil_r, <- ?app_assoc; reflexivity.
Qed.

(** C5: on an error object that carries a [config] object and a [response],
    [responseErrorHandler] first normalizes the error in place (an empty
    [message] becomes the derived message, an empty [code] becomes a truthy
    status; nothing else in the store changes) and then, if [handleError] is
    set, rejects with that very object without displaying anything;
    otherwise it displays the derived message once with [errorMessage] and
    rejects with a standardized error that is a new object, distinct from
    the error it was given. *)
Theorem responseErrorHandler_config_present w l :
  let error := VRef l in
  let h := store w in
  let config := field h error "config" in
  let request := field h error "request" in
  let response := field h error "response" in
  let data := field h response "data" in
  let status := field h response "status" in
  let statusText := field h response "statusText" in
  let message := field h error "message" in
  let code := field h error "code" in
  let errorMsg :=
    js_or (js_or (getMessage h data status statusText) message)
          (VStr "Uncaught Error (in ibuild/http)") in
  let logged : list (event Handler) :=
    if truthy (field h config "debug") then [ConsoleDir error] else [] in
  truthy config = true →
  nullish response = false →
  ∃ (h2 : heap) (r : JsVal) w',
    responseErrorHandler error w = (Normal (Rejected r), w')
    ∧ field h2 error "message" = (if truthy message then message else errorMsg)
    ∧ field h2 error "code"
      = (if negb (truthy code) && truthy status then status else code)
    ∧ (∀ k, k ≠ "message" → k ≠ "code" → field h2 error k = field h error k)
    ∧ (∀ l2, l2 ≠ l → h2 !! l2 = h !! l2)
    ∧ (truthy (field h config "handleError") = true →
       r = error ∧ store w' = h2 ∧ trace w' = (trace w ++ logged)%list)
    ∧ (truthy (field h config "handleError") = false →
       ∃ l', r = VRef l' ∧ l' ≠ l ∧ h !! l' = None
         ∧ store w'
           = <[l' := standardized errorMsg config
                       (code_or_status_of h2 data status) request response]> h2
         ∧ trace w'
           = (trace w ++ logged ++ [Display errorMessage errorMsg])%list).
Proof.
  cbv zeta. intros Hc Hr.
  assert (is_Some (store w !! l)) as Hl.
  { apply (field_is_Some _ _ "config"). intros Hu. rewrite Hu in Hc. discriminate. }
  pose proof (responseErrorHandler_run w l Hc Hr) as Hrun. cbv zeta in Hrun.
  match type of Hrun with
  | context [normalized ?h ?l ?m ?st] => set (h2 := normalized h l m st) in *
  end.
  assert (store w !! fresh (dom h2) = None) as Hfresh.
  { apply (normalized_None _ l _ _ _ (not_elem_of_dom_1 h2 _ (is_fresh (dom h2)))). }
  exists h2.
  destruct (truthy (field (store w) (field (store w) (VRef l) "config") "handleError"))
    eqn:Hh;
    eexists _, _; (split; [exact Hrun|]);
    (split; [apply normalized_message|]);
    (split; [apply normalized_code|]);
    (split; [intros k; apply normalized_other_property|]);
    (split; [intros l2; apply normalized_other_object|]);
    (split; [|]); intros [=]; cbn [store trace].
  - repeat split.
  - exists (fresh (dom h2)). repeat split; try assumption.
    intros Heq. rewrite Heq in Hfresh. rewrite Hfresh in Hl.
    destruct Hl as [? [=]].
Qed.

(** *** Message display *)

Ltac close_trace :=
  cbn [snd trace]; rewrite <- ?app_assoc;
  first [ exists []; split; [symmetry; apply app_nil_r|]
        | eexists; split; [reflexivity|] ];
  repeat match goal with
         | H : negb _ = true |- _ => apply negb_true_iff in H
         | H : negb _ = false |- _ => apply negb_false_iff in H
         end;
  rewrite_bools;
  cbn; split; [lia | try reflexivity; try discriminate].

(** Whatever the input and the outcome, [responseHandler] only adds to the
    trace, displays at most one message, and displays none when [ignoreMsg]
    or [handleError] is set. *)
Lemma responseHandler_displays w (response : JsVal) (allResponse : bool) :
  let config := field (store w) response "config" in
  ∃ evs : list (event Handler),
    trace (snd (responseHandler response allResponse w)) = (trace w ++ evs)%list
    ∧ (displays evs ≤ 1)%nat
    ∧ (truthy (field (store w) config "ignoreMsg")
       || truthy (field (store w) config "handleError") = true →
       displays evs = 0).
Proof.
  cbv zeta. unfold responseHandler.
  destruct (nullish response) eqn:Hr;
    [rewrite bind_member_nullish by exact Hr; close_trace|].
  run; close_trace.
Qed.

(** So does [responseErrorHandler], except that only [handleError] keeps it
    from displaying. *)
Lemma responseErrorHandler_displays w (error : JsVal) :
  let config := field (store w) error "config" in
  ∃ evs : list (event Handler),
    trace (snd (responseErrorHandler error w)) = (trace w ++ evs)%list
    ∧ (displays evs ≤ 1)%nat
    ∧ (truthy (field (store w) config "handleError") = true → displays evs = 0).
Proof.
  cbv zeta. unfold responseErrorHandler.
  destruct (nullish error) eqn:He;
    [rewrite bind_member_nullish by exact He; close_trace|].
  destruct error as [| | | | |l]; try discriminate;
    run; close_trace.
Qed.

(** *** Further properties of the success path *)

(** With the [all] flag, an OK-status response is handed back as it is,
    whatever its body, [external] and [allResponse]; nothing is displayed and
    the store is untouched (the response is logged under [debug]). *)
Theorem responseHandler_all_returns_response w l (allResponse : bool) :
  let response := VRef l in
  let status := field (store w) response "status" in
  let config := field (store w) response "config" in
  let logged : list (event Handler) :=
    if truthy (field (store w) config "debug") then [ConsoleLog response] else [] in
  status = HTTP_STATUS_CODE_OK →
  nullish config = false →
  truthy (field (store w) config "all") = true →
  responseHandler response allResponse w
  = (Normal (Value response), World (store w) (trace w ++ logged)%list).
Proof.
  destruct w as [h t]. cbv zeta. cbn [store trace]. intros Hs Hc Hall.
  unfold responseHandler. enter_handler. cbn [store].
  rewrite (strict_eq_true _ _ Hs). cbn [negb]. rewrite orb_false_r.
  run; rewrite ?app_nil_r; reflexivity.
Qed.

(** With the [external] flag (and without [all]), an OK-status response is
    answered with its body, or with the response under [allResponse],
    without the envelope being examined: the outcome does not depend on
    [isStandardResponseBody] or [isRightResponse], and nothing is
    displayed. *)
Theorem responseHandler_external_returns_body w l (allResponse : bool) :
  let response := VRef l in
  let data := field (store w) response "data" in
  let status := field (store w) response "status" in
  let config := field (store w) response "config" in
  let logged : list (event Handler) :=
    if truthy (field (store w) config "debug") then [ConsoleLog response] else [] in
  status = HTTP_STATUS_CODE_OK →
  nullish config = false →
  truthy (field (store w) config "all") = false →
  truthy (field (store w) config "external") = true →
  responseHandler response allResponse w
  = (Normal (Value (if allResponse then response else data)),
     World (store w) (trace w ++ logged)%list).
Proof.
  destruct w as [h t]. cbv zeta. cbn [store trace]. intros Hs Hc Hall Hext.
  unfold responseHandler. enter_handler. cbn [store].
  rewrite (strict_eq_true _ _ Hs). cbn [negb]. rewrite orb_false_r.
  run; rewrite ?app_nil_r; reflexivity.
Qed.

(** A right standard envelope (an object) on an OK-status response without
    [all] and [external] is answered with its payload [data.data], or with
    the response under [allResponse]; nothing is displayed and the store is
    untouched. *)
Theorem responseHandler_right_envelope w l (allResponse : bool) :
  let response := VRef l in
  let data := field (store w) response "data" in
  let status := field (store w) response "status" in
  let config := field (store w) response "config" in
  let logged : list (event Handler) :=
    if truthy (field (store w) config "debug") then [ConsoleLog response] else [] in
  status = HTTP_STATUS_CODE_OK →
  nullish config = false →
  truthy (field (store w) config "all") = false →
  truthy (field (store w) config "external") = false →
  nullish data = false →
  isStandardResponseBody (store w) data = true →
  isRightResponse (store w) data = true →
  responseHandler response allResponse w
  = (Normal (Value (if allResponse then response
                    else field (store w) data "data")),
     World (store w) (trace w ++ logged)%list).
Proof.
  destruct w as [h t]. cbv zeta. cbn [store trace].
  intros Hs Hc Hall Hext Hd Hstd Hright.
  unfold responseHandler. enter_handler. cbn [store].
  rewrite (strict_eq_true _ _ Hs). cbn [negb]. rewrite orb_false_r.
  run; rewrite ?app_nil_r; reflexivity.
Qed.

(** On a failing standard envelope, with neither [handleError] nor
    [ignoreMsg], exactly one message is displayed, after the optional log:
    the derived message, by the handler registered in [codeHandlers] under
    the string form of [data.code], or by [errorMessage] when there is none.
    This happens under [allResponse] as well, where the call then returns
    the response. *)
Theorem responseHandler_failure_display w l (allResponse : bool) :
  let response := VRef l in
  let data := field (store w) response "data" in
  let status := field (store w) response "status" in
  let statusText := field (store w) response "statusText" in
  let config := field (store w) response "config" in
  let logged : list (event Handler) :=
    if truthy (field (store w) config "debug") then [ConsoleLog response] else [] in
  let handler :=
    default errorMessage (codeHandlers !! to_string (field (store w) data "code")) in
  status = HTTP_STATUS_CODE_OK →
  nullish config = false →
  truthy (field (store w) config "all") = false →
  truthy (field (store w) config "external") = false →
  nullish data = false →
  isStandardResponseBody (store w) data = true →
  isRightResponse (store w) data = false →
  truthy (field (store w) config "handleError") = false →
  truthy (field (store w) config "ignoreMsg") = false →
  ∃ r w',
    responseHandler response allResponse w = (Normal r, w')
    ∧ trace w'
      = (trace w ++ logged
         ++ [Display handler (getMessage (store w) data status statusText)])%list.
Proof.
  destruct w as [h t]. cbv zeta. cbn [store trace].
  intros Hs Hc Hall Hext Hd Hstd Hright Hhe Hig.
  unfold responseHandler. enter_handler. cbn [store].
  rewrite (strict_eq_true _ _ Hs). cbn [negb]. rewrite orb_false_r.
  run; eexists _, _; (split; [reflexivity|]); cbn [trace];
    rewrite <- ?app_assoc; reflexivity.
Qed.

(** When the response or its [config] is [undefined] or [null], the
    destructuring at the head of [responseHandler] throws a [TypeError]
    before anything is logged, and [needReturnResponseHandler] throws with
    it. *)
Theorem responseHandler_throws_without_config w (response : JsVal)
    (allResponse : bool) :
  nullish (field (store w) response "config") = true →
  responseHandler response allResponse w = (Throw TypeError, w)
  ∧ needReturnResponseHandler response w = (Throw TypeError, w).
Proof.
  intros Hc.
  assert (∀ b, responseHandler response b w = (Throw TypeError, w)) as Hthrow.
  { intros b. unfold responseHandler.
    destruct (nullish response) eqn:Hr;
      [rewrite bind_member_nullish by exact Hr; reflexivity|].
    do 5 step. rewrite bind_member_nullish by exact Hc. reflexivity. }
  split; [apply Hthrow|].
  rewrite needReturnResponseHandler_eq. apply Hthrow.
Qed.

(** [needReturnResponseHandler] answers every OK-status response with the
    response itself, whatever the flags and whether or not the envelope is
    right, and leaves the store as it was. *)
Theorem needReturnResponseHandler_ok_returns_response w l :
  let response := VRef l in
  let data := field (store w) response "data" in
  let status := field (store w) response "status" in
  let config := field (store w) response "config" in
  status = HTTP_STATUS_CODE_OK →
  nullish config = false →
  (isStandardResponseBody (store w) data = true → nullish data = false) →
  ∃ w',
    needReturnResponseHandler response w = (Normal (Value response), w')
    ∧ store w' = store w.
Proof.
  cbv zeta. intros Hs Hc Hobj.
  rewrite needReturnResponseHandler_eq.
  unfold responseHandler. enter_handler.
  rewrite (strict_eq_true _ _ Hs).
  run; try (eexists; split; reflexivity);
    match goal with
    | H : (_ || negb (isStandardResponseBody _ _))%bool = false |- _ =>
        apply orb_false_elim in H as [_ H];
        apply negb_false_iff, Hobj in H; discriminate
    end.
Qed.

(** [responseHandler] never touches an object that exists: on every input
    and every outcome, the store it leaves extends the store it was given
    (by the standardized error of a rejection, if any). *)
Theorem responseHandler_preserves_store w (response : JsVal) (allResponse : bool) :
  store w ⊆ store (snd (responseHandler response allResponse w)).
Proof.
  unfold responseHandler.
  destruct (nullish response) eqn:Hr;
    [rewrite bind_member_nullish by exact Hr; reflexivity|].
  run; cbn [snd store];
    first [ reflexivity
          | apply insert_subseteq, (not_elem_of_dom (D := gset loc)), is_fresh ].
Qed.

(** Whenever [responseHandler] rejects, the reason is a new object that
    carries the response it was given, together with that response's
    [config] and [request]. *)
Theorem responseHandler_rejection_carries_response
    w (response : JsVal) (allResponse : bool) (e : JsVal) w' :
  responseHandler response allResponse w = (Normal (Rejected e), w') →
  ∃ l', e = VRef l' ∧ store w !! l' = None
    ∧ field (store w') e "response" = response
    ∧ field (store w') e "config" = field (store w) response "config"
    ∧ field (store w') e "request" = field (store w) response "request".
Proof.
  unfold responseHandler.
  destruct (nullish response) eqn:Hr;
    [rewrite bind_member_nullish by exact Hr; discriminate|].
  run; intros [= <- <-]; cbn [store];
    (eexists; split; [reflexivity|];
     split; [apply (not_elem_of_dom (D := gset loc)), is_fresh|];
     match goal with
     | |- context [<[?l' := standardized ?m ?c ?k' ?rq ?rs]> ?h] =>
         destruct (field_standardized h l' m c k' rq rs)
           as (_ & Hconfig & _ & Hrequest & Hresponse)
     end;
     repeat split; assumption).
Qed.

(** [allResponse] only changes what is returned: what is logged and
    displayed is the same with and without it, on every input. *)
Theorem responseHandler_allResponse_same_trace w (response : JsVal) :
  trace (snd (responseHandler response true w))
  = trace (snd (responseHandler response false w)).
Proof.
  unfold responseHandler.
  destruct (nullish response) eqn:Hr;
    [rewrite !bind_member_nullish by exact Hr; reflexivity|].
  run; reflexivity.
Qed.

(** *** Further properties of the error path *)

Lemma falsy_field h v k : truthy v = false → field h v k = VUndef.
Proof.
  intros Hv. apply field_primitive. intros l ->. discriminate.
Qed.

Lemma errorMsg_truthy (a b : JsVal) :
  truthy (js_or (js_or a b) (VStr "Uncaught Error (in ibuild/http)")) = true.
Proof.
  unfold js_or.
  destruct (truthy a) eqn:Ha; cbv iota;
    [rewrite ?Ha; first [exact Ha | reflexivity]|].
  destruct (truthy b) eqn:Hb; cbv iota;
    [rewrite ?Hb; first [exact Hb | reflexivity] | reflexivity].
Qed.

(** What [responseErrorHandler] does on a [config] that is present but
    falsy. *)
Lemma responseErrorHandler_falsy_config_run w (error : JsVal) :
  nullish (field (store w) error "config") = false →
  truthy (field (store w) error "config") = false →
  nullish (field (store w) error "response") = false →
  responseErrorHandler error w = (Normal (Value VUndef), w).
Proof.
  intros Hn Hc Hr.
  assert (nullish error = false) as He.
  { destruct error; try reflexivity; discriminate Hn. }
  unfold responseErrorHandler.
  do 8 step.
  rewrite (falsy_field _ _ "debug" Hc). cbn [truthy].
  run. reflexivity.
Qed.

(** [responseErrorHandler] returns [undefined] or a rejected promise. *)
Lemma responseErrorHandler_result_cases w (error : JsVal) (r : settled) w' :
  responseErrorHandler error w = (Normal r, w') →
  (r = Value VUndef ∧ w' = w
   ∧ nullish (field (store w) error "config") = false
   ∧ truthy (field (store w) error "config") = false
   ∧ nullish (field (store w) error "response") = false)
  ∨ (∃ e, r = Rejected e).
Proof.
  destruct (nullish (field (store w) error "config")) eqn:Hn.
  { unfold responseErrorHandler.
    destruct (nullish error) eqn:He;
      [rewrite bind_member_nullish by exact He; discriminate|].
    do 3 step. rewrite bind_member_nullish by exact Hn. discriminate. }
  destruct (nullish (field (store w) error "response")) eqn:Hr.
  { unfold responseErrorHandler.
    destruct (nullish error) eqn:He;
      [rewrite bind_member_nullish by exact He; discriminate|].
    do 5 step. rewrite bind_member_nullish by exact Hr. discriminate. }
  destruct (truthy (field (store w) error "config")) eqn:Hc.
  - destruct error as [| | | | |l];
      try (rewrite field_primitive in Hc by (intros l'; discriminate);
           discriminate Hc).
    rewrite (responseErrorHandler_run w l Hc Hr).
    match goal with |- context [if ?c then _ else _] => destruct c end;
      intros [= <- <-]; right; eauto.
  - rewrite (responseErrorHandler_falsy_config_run w error Hn Hc Hr).
    intros [= <- <-]. left. repeat split.
Qed.

(** [responseErrorHandler] returns [undefined] exactly when the error has a
    [response] and a [config] that is neither [undefined] nor [null] but
    falsy; it then has logged, displayed and changed nothing. *)
Theorem responseErrorHandler_undefined_iff w (error : JsVal) w' :
  responseErrorHandler error w = (Normal (Value VUndef), w')
  ↔ w' = w
    ∧ nullish (field (store w) error "config") = false
    ∧ truthy (field (store w) error "config") = false
    ∧ nullish (field (store w) error "response") = false.
Proof.
  split.
  - intros Hrun.
    destruct (responseErrorHandler_result_cases _ _ _ _ Hrun)
      as [(_ & Hw & Hrest) | [e [=]]].
    split; assumption.
  - intros (-> & Hn & Hc & Hr).
    apply responseErrorHandler_falsy_config_run; assumption.
Qed.

(** On such an error, [needReturnResponseErrorHandler] takes its fallback:
    it rejects with the error it was given, which it has not modified. *)
Theorem needReturnResponseErrorHandler_fallback w (error : JsVal) :
  nullish (field (store w) error "config") = false →
  truthy (field (store w) error "config") = false →
  nullish (field (store w) error "response") = false →
  needReturnResponseErrorHandler error w = (Normal (Rejected error), w).
Proof.
  intros Hn Hc Hr.
  unfold needReturnResponseErrorHandler, bind.
  rewrite (responseErrorHandler_falsy_config_run w error Hn Hc Hr).
  reflexivity.
Qed.

(** [needReturnResponseErrorHandler] never resolves: whenever it returns,
    it returns a rejected promise; and unless it took its fallback, that is
    the promise [responseErrorHandler] returned. *)
Theorem needReturnResponseErrorHandler_never_resolves
    w (error : JsVal) (r : settled) w' :
  needReturnResponseErrorHandler error w = (Normal r, w') →
  ∃ e, r = Rejected e
       ∧ (responseErrorHandler error w = (Normal (Rejected e), w')
          ∨ (e = error ∧ w' = w)).
Proof.
  unfold needReturnResponseErrorHandler, bind.
  destruct (responseErrorHandler error w) as [[r0|x] w0] eqn:Hrun;
    [|discriminate].
  destruct (responseErrorHandler_result_cases _ _ _ _ Hrun)
    as [(-> & -> & _) | [e ->]]; cbn; intros [= <- <-]; eauto.
Qed.

(** Every error [responseErrorHandler] rejects with has a non-empty
    message: the original error has been given one if it had none, and the
    standardized error is built with the derived message, which is never
    empty. *)
Theorem responseErrorHandler_rejected_message w (error e : JsVal) w' :
  responseErrorHandler error w = (Normal (Rejected e), w') →
  truthy (field (store w') e "message") = true.
Proof.
  intros Hrun.
  destruct (truthy (field (store w) error "config")) eqn:Hc.
  - destruct error as [| | | | |l];
      try (rewrite field_primitive in Hc by (intros l'; discriminate);
           discriminate Hc).
    destruct (nullish (field (store w) (VRef l) "response")) eqn:Hr.
    + revert Hrun. unfold responseErrorHandler.
      pose proof (truthy_not_nullish _ Hc) as Hn.
      do 5 step. rewrite bind_member_nullish by exact Hr. discriminate.
    + rewrite (responseErrorHandler_run w l Hc Hr) in Hrun.
      revert Hrun.
      match goal with |- context [if ?c then _ else _] => destruct c end;
        intros [= <- <-]; cbn [store].
      * rewrite normalized_message.
        destruct (truthy (field (store w) (VRef l) "message")) eqn:Hm;
          [exact Hm | apply errorMsg_truthy].
      * match goal with
        | |- context [<[?l' := standardized ?m ?c ?k' ?rq ?rs]> ?h] =>
            destruct (field_standardized h l' m c k' rq rs) as (-> & _)
        end.
        apply errorMsg_truthy.
  - destruct (responseErrorHandler_result_cases _ _ _ _ Hrun)
      as [([=] & _) | [e' _]].
    exfalso. revert Hrun. unfold responseErrorHandler.
    destruct (nullish error) eqn:He;
      [rewrite bind_member_nullish by exact He; discriminate|].
    run; discriminate.
Qed.

(** The error is the only existing object [responseErrorHandler] ever
    writes to: every other object of the store ([config], [response],
    [request], the body) is left as it was, on every outcome. *)
Theorem responseErrorHandler_modifies_only_error w l l2 (o : obj) :
  l2 ≠ l →
  store w !! l2 = Some o →
  store (snd (responseErrorHandler (VRef l) w)) !! l2 = Some o.
Proof.
  intros Hl Ho.
  destruct (truthy (field (store w) (VRef l) "config")) eqn:Hc;
    [destruct (nullish (field (store w) (VRef l) "response")) eqn:Hr|].
  - unfold responseErrorHandler.
    pose proof (truthy_not_nullish _ Hc) as Hn.
    do 5 step. rewrite bind_member_nullish by exact Hr. exact Ho.
  - rewrite (responseErrorHandler_run w l Hc Hr).
    match goal with |- context [normalized ?h ?l ?m ?st] =>
      pose proof (normalized_other_object h l m st l2 Hl) as Hsame;
      set (h2 := normalized h l m st) in *
    end.
    rewrite Ho in Hsame.
    match goal with |- context [if ?c then _ else _] => destruct c end;
      cbn [snd store]; [exact Hsame|].
    rewrite lookup_insert_ne; [exact Hsame|].
    intros Heq. pose proof (is_fresh (dom h2)) as Hfresh.
    rewrite Heq in Hfresh. apply Hfresh, elem_of_dom. eauto.
  - unfold responseErrorHandler. run; exact Ho.
Qed.

End Properties.

(** ** The handlers on concrete inputs *)

Lemma responseHandler_unexpected_status_message_witness :
  let w := World (response_store 500 VUndef ∅ ∅) [] in
  ∃ l' w' (message : string),
    responseHandler (C := demo) (VRef 1) false w
    = (Normal (Rejected (VRef l')), w')
    ∧ field (store w') (VRef l') "message" = VStr message
    ∧ message = "Unexpected http status code: 500".
Proof.
  intros w.
  destruct (responseHandler_unexpected_status_message (C := demo) w 1 false 500)
    as (l' & w' & message & Hrun & Hmsg & _ & _ & H500);
    [vm_compute; reflexivity | vm_compute; reflexivity | discriminate |].
  exists l', w', message.
  split; [exact Hrun|]. split; [exact Hmsg|].
  apply H500. reflexivity.
Defined.

Lemma responseHandler_unexpected_status_code_witness :
  let w := World (response_store 500 (VRef 2) (envelope 0 false "down") ∅) [] in
  ∃ l' w',
    responseHandler (C := demo) (VRef 1) false w
    = (Normal (Rejected (VRef l')), w')
    ∧ field (store w) (VRef 2) "code" = VNum 0
    ∧ field (store w') (VRef l') "code" = VNum 500.
Proof.
  intros w.
  destruct (responseHandler_unexpected_status_code (C := demo) w 1 false)
    as (l' & w' & Hrun & _ & Hzero);
    [vm_compute; reflexivity | discriminate |].
  exists l', w'.
  split; [exact Hrun|]. split; [vm_compute; reflexivity|].
  rewrite Hzero; vm_compute; reflexivity.
Defined.

(** C3 (counterexample): an OK-status response whose body is a standard
    envelope that is not right is not rejected when its [config] sets [all]
    (the response is returned) or [external] (the body is returned). *)
Lemma failure_envelope_not_rejected_with_all_or_external :
  let w_all :=
    World (response_store 200 (VRef 2) (envelope 403 false "Forbidden")
                          {[ "all" := VBool true ]}) [] in
  let w_external :=
    World (response_store 200 (VRef 2) (envelope 403 false "Forbidden")
                          {[ "external" := VBool true ]}) [] in
  (field (store w_all) (VRef 1) "status" = HTTP_STATUS_CODE_OK (Collaborators := demo)
   ∧ isStandardResponseBody (Collaborators := demo) (store w_all) (VRef 2) = true
   ∧ isRightResponse (Collaborators := demo) (store w_all) (VRef 2) = false
   ∧ responseHandler (C := demo) (VRef 1) false w_all
     = (Normal (Value (VRef 1)), w_all))
  ∧ (field (store w_external) (VRef 1) "status"
     = HTTP_STATUS_CODE_OK (Collaborators := demo)
     ∧ isStandardResponseBody (Collaborators := demo) (store w_external) (VRef 2) = true
     ∧ isRightResponse (Collaborators := demo) (store w_external) (VRef 2) = false
     ∧ responseHandler (C := demo) (VRef 1) false w_external
       = (Normal (Value (VRef 2)), w_external))
  ∧ ¬ (∀ w l,
         field (store w) (VRef l) "status" = HTTP_STATUS_CODE_OK (Collaborators := demo) →
         isStandardResponseBody (Collaborators := demo) (store w)
           (field (store w) (VRef l) "data") = true →
         isRightResponse (Collaborators := demo) (store w)
           (field (store w) (VRef l) "data") = false →
         ∃ e w', responseHandler (C := demo) (VRef l) false w
                 = (Normal (Rejected e), w')).
Proof.
  intros w_all w_external.
  split; [vm_compute; repeat split|].
  split; [vm_compute; repeat split|].
  intros Hclaim.
  destruct (Hclaim w_all 1%positive) as (e & w' & Hrun);
    [vm_compute; reflexivity ..|].
  vm_compute in Hrun. discriminate Hrun.
Qed.

Lemma responseHandler_failure_rejects_witness :
  let w :=
    World (response_store 200 (VRef 2) (envelope 403 false "Forbidden")
                          {[ "handleError" := VBool true ]}) [] in
  ∃ l' w',
    responseHandler (C := demo) (VRef 1) false w
    = (Normal (Rejected (VRef l')), w')
    ∧ field (store w') (VRef l') "code" = VNum 403.
Proof.
  intros w.
  destruct (responseHandler_failure_rejects (C := demo) w 1)
    as (l' & w' & Hrun & _ & Hcode & _); [vm_compute; reflexivity ..|].
  exists l', w'. split; [exact Hrun|].
  rewrite Hcode. vm_compute. reflexivity.
Defined.

Lemma responseHandler_failure_allResponse_witness :
  let w :=
    World (response_store 200 (VRef 2) (envelope 403 false "Forbidden") ∅) [] in
  ∃ w',
    responseHandler (C := demo) (VRef 1) true w = (Normal (Value (VRef 1)), w')
    ∧ store w' = store w.
Proof.
  intros w.
  apply (responseHandler_failure_allResponse (C := demo) w 1);
    vm_compute; reflexivity.
Defined.

(** C7 (counterexample): an OK-status response whose body, a string, fails
    the standard-envelope check is answered with the response itself, not
    with the body, when [config] sets [all] and when [allResponse] is set. *)
Lemma nonstandard_body_answered_with_response :
  let w_all :=
    World (response_store 200 (VStr "enum") ∅ {[ "all" := VBool true ]}) [] in
  let w := World (response_store 200 (VStr "enum") ∅ ∅) [] in
  (field (store w_all) (VRef 1) "status" = HTTP_STATUS_CODE_OK (Collaborators := demo)
   ∧ field (store w_all) (VRef 1) "data" = VStr "enum"
   ∧ isStandardResponseBody (Collaborators := demo) (store w_all) (VStr "enum") = false
   ∧ responseHandler (C := demo) (VRef 1) false w_all
     = (Normal (Value (VRef 1)), w_all))
  ∧ (field (store w) (VRef 1) "status" = HTTP_STATUS_CODE_OK (Collaborators := demo)
     ∧ field (store w) (VRef 1) "data" = VStr "enum"
     ∧ isStandardResponseBody (Collaborators := demo) (store w) (VStr "enum") = false
     ∧ responseHandler (C := demo) (VRef 1) true w
       = (Normal (Value (VRef 1)), w))
  ∧ ¬ (∀ w0 l (allResponse : bool),
         field (store w0) (VRef l) "status"
         = HTTP_STATUS_CODE_OK (Collaborators := demo) →
         isStandardResponseBody (Collaborators := demo) (store w0)
           (field (store w0) (VRef l) "data") = false →
         ∃ w', responseHandler (C := demo) (VRef l) allResponse w0
               = (Normal (Value (field (store w0) (VRef l) "data")), w')).
Proof.
  intros w_all w.
  split; [vm_compute; repeat split|].
  split; [vm_compute; repeat split|].
  intros Hclaim.
  destruct (Hclaim w 1%positive true) as (w' & Hrun);
    [vm_compute; reflexivity ..|].
  vm_compute in Hrun. discriminate Hrun.
Qed.

Lemma responseHandler_nonstandard_body_witness :
  let w := World (response_store 200 (VStr "enum") ∅ ∅) [] in
  ∃ w',
    responseHandler (C := demo) (VRef 1) false w
    = (Normal (Value (VStr "enum")), w')
    ∧ store w' = store w.
Proof.
  intros w.
  apply (responseHandler_nonstandard_body (C := demo) w 1 false);
    vm_compute; reflexivity.
Defined.

Lemma needReturnResponseHandler_no_fallback_witness :
  let w :=
    World (response_store 200 (VRef 2) (envelope 0 true EmptyString) ∅) [] in
  ∃ r w',
    responseHandler (C := demo) (VRef 1) true w = (Normal r, w')
    ∧ (r = Value (VRef 1) ∨ ∃ e, r = Rejected e)
    ∧ is_undefined r = false
    ∧ needReturnResponseHandler (C := demo) (VRef 1) w = (Normal r, w').
Proof.
  intros w.
  apply (proj2 (needReturnResponseHandler_no_fallback (C := demo)) w 1%positive);
    [vm_compute; reflexivity | intros _; vm_compute; reflexivity].
Defined.

(** C1 (the code at the failing input): on an error whose [config] is
    [undefined], [responseErrorHandler] does not return [undefined]: it
    throws a [TypeError] at the destructuring of [config], and so does the
    wrapper [needReturnResponseErrorHandler], which therefore never reaches
    its rejection with the original error. *)
Theorem responseErrorHandler_config_undefined_throws :
  let error : obj :=
    {[ "message" := VStr "Request failed"; "request" := VRef 4;
       "response" := VRef 5 ]} in
  let w := World (error_store error ∅) [] in
  field (store w) (VRef 1) "config" = VUndef
  ∧ responseErrorHandler (C := demo) (VRef 1) w = (Throw TypeError, w)
  ∧ needReturnResponseErrorHandler (C := demo) (VRef 1) w = (Throw TypeError, w)
  ∧ responseErrorHandler (C := demo) (VRef 1) w ≠ (Normal (Value VUndef), w)
  ∧ needReturnResponseErrorHandler (C := demo) (VRef 1) w
    ≠ (Normal (Rejected (VRef 1)), w).
Proof.
  intros error w.
  split; [vm_compute; reflexivity|].
  split; [vm_compute; reflexivity|].
  split; [vm_compute; reflexivity|].
  split; intros Heq; vm_compute in Heq; discriminate Heq.
Qed.

(** C2 (the code at the failing input): on an error whose [config] sets
    [ignoreMsg] and not [handleError], [responseErrorHandler] still displays
    the derived message with [errorMessage]. *)
Theorem responseErrorHandler_displays_despite_ignoreMsg :
  let error : obj :=
    {[ "config" := VRef 3; "message" := VStr EmptyString; "request" := VRef 4;
       "response" := VRef 5 ]} in
  let w := World (error_store error {[ "ignoreMsg" := VBool true ]}) [] in
  truthy (field (store w) (field (store w) (VRef 1) "config") "ignoreMsg") = true
  ∧ ∃ w',
      responseErrorHandler (C := demo) (VRef 1) w
      = (Normal (Rejected (VRef 6)), w')
      ∧ trace w'
        = [Display (errorMessage (Collaborators := demo))
                   (VStr "Internal Server Error")]
      ∧ displays (trace w') = 1.
Proof.
  intros error w.
  split; [vm_compute; reflexivity|].
  eexists. split; [vm_compute; reflexivity|].
  split; reflexivity.
Qed.

Lemma responseErrorHandler_config_present_witness :
  let error : obj :=
    {[ "config" := VRef 3; "message" := VStr EmptyString; "request" := VRef 4;
       "response" := VRef 5 ]} in
  let w := World (error_store error {[ "handleError" := VBool true ]}) [] in
  ∃ w',
    responseErrorHandler (C := demo) (VRef 1) w = (Normal (Rejected (VRef 1)), w')
    ∧ field (store w') (VRef 1) "message" = VStr "Internal Server Error"
    ∧ field (store w') (VRef 1) "code" = VNum 500
    ∧ trace w' = [].
Proof.
  intros error w.
  destruct (responseErrorHandler_config_present (C := demo) w 1)
    as (h2 & r & w' & Hrun & Hmessage & Hcode & _ & _ & Hset & _);
    [vm_compute; reflexivity ..|].
  destruct Hset as (-> & Hstore & Htrace); [vm_compute; reflexivity|].
  exists w'. rewrite Hstore, Hmessage, Hcode, Htrace.
  split; [exact Hrun|]. vm_compute. repeat split.
Defined.

Lemma responseErrorHandler_throws_without_response_witness :
  let error : obj :=
    {[ "config" := VRef 3; "message" := VStr "Network Error";
       "request" := VRef 4 ]} in
  let w := World (error_store error ∅) [] in
  field (store w) (VRef 1) "response" = VUndef
  ∧ responseErrorHandler (C := demo) (VRef 1) w = (Throw TypeError, w)
  ∧ needReturnResponseErrorHandler (C := demo) (VRef 1) w = (Throw TypeError, w).
Proof.
  intros error w.
  split; [vm_compute; reflexivity|].
  apply (responseErrorHandler_throws_without_config_or_response (C := demo) w (VRef 1)).
  right. vm_compute. reflexivity.
Defined.

(** ** Further runs on concrete inputs *)

Lemma responseHandler_all_returns_response_witness :
  let w :=
    World (response_store 200 (VRef 2) (envelope 403 false "Forbidden")
                          {[ "all" := VBool true ]}) [] in
  responseHandler (C := demo) (VRef 1) false w = (Normal (Value (VRef 1)), w).
Proof.
  intros w.
  rewrite (responseHandler_all_returns_response (C := demo) w 1 false);
    vm_compute; reflexivity.
Defined.

Lemma responseHandler_external_returns_body_witness :
  let w :=
    World (response_store 200 (VRef 2) (envelope 403 false "Forbidden")
                          {[ "external" := VBool true ]}) [] in
  responseHandler (C := demo) (VRef 1) false w = (Normal (Value (VRef 2)), w).
Proof.
  intros w.
  rewrite (responseHandler_external_returns_body (C := demo) w 1 false);
    vm_compute; reflexivity.
Defined.

Lemma responseHandler_right_envelope_witness :
  let body : obj := <["data" := VNum 7]> (envelope 0 true EmptyString) in
  let w := World (response_store 200 (VRef 2) body ∅) [] in
  responseHandler (C := demo) (VRef 1) false w = (Normal (Value (VNum 7)), w).
Proof.
  intros body w.
  rewrite (responseHandler_right_envelope (C := demo) w 1 false);
    vm_compute; reflexivity.
Defined.

Lemma responseHandler_failure_display_witness :
  let w :=
    World (response_store 200 (VRef 2) (envelope 403 false "Forbidden") ∅) [] in
  ∃ r w',
    responseHandler (C := demo) (VRef 1) true w = (Normal r, w')
    ∧ trace w' = [Display (H := string) "forbidden" (VStr "Forbidden")].
Proof.
  intros w.
  destruct (responseHandler_failure_display (C := demo) w 1 true)
    as (r & w' & Hrun & Htrace); [vm_compute; reflexivity ..|].
  exists r, w'. split; [exact Hrun|]. rewrite Htrace. vm_compute. reflexivity.
Defined.

Lemma responseHandler_throws_without_config_witness :
  let w :=
    World {[ 1%positive := {[ "data" := VNull; "status" := VNum 200 ]} ]} [] in
  responseHandler (C := demo) (VRef 1) false w = (Throw TypeError, w)
  ∧ needReturnResponseHandler (C := demo) (VRef 1) w = (Throw TypeError, w).
Proof.
  intros w.
  apply (responseHandler_throws_without_config (C := demo) w (VRef 1) false).
  vm_compute. reflexivity.
Defined.

Lemma needReturnResponseHandler_ok_returns_response_witness :
  let w :=
    World (response_store 200 (VRef 2) (envelope 403 false "Forbidden") ∅) [] in
  ∃ w',
    needReturnResponseHandler (C := demo) (VRef 1) w
    = (Normal (Value (VRef 1)), w')
    ∧ store w' = store w.
Proof.
  intros w.
  apply (needReturnResponseHandler_ok_returns_response (C := demo) w 1);
    [vm_compute; reflexivity | vm_compute; reflexivity
    | intros _; vm_compute; reflexivity].
Defined.

Lemma responseHandler_rejection_carries_response_witness :
  let w := World (response_store 500 VUndef ∅ ∅) [] in
  ∃ l' w',
    responseHandler (C := demo) (VRef 1) false w
    = (Normal (Rejected (VRef l')), w')
    ∧ store w !! l' = None
    ∧ field (store w') (VRef l') "response" = VRef 1
    ∧ field (store w') (VRef l') "config" = VRef 3
    ∧ field (store w') (VRef l') "request" = VRef 4.
Proof.
  intros w.
  destruct (responseHandler (C := demo) (VRef 1) false w) as [c w'] eqn:Hrun.
  assert (c = Normal (Rejected (VRef 5))) as ->.
  { vm_compute in Hrun. injection Hrun as <- _. reflexivity. }
  destruct (responseHandler_rejection_carries_response (C := demo)
              w (VRef 1) false (VRef 5) w' Hrun)
    as (l' & [= <-] & Hnone & Hresponse & Hconfig & Hrequest).
  exists 5%positive, w'. repeat split; assumption.
Defined.

Lemma responseErrorHandler_undefined_iff_witness :
  let error : obj :=
    {[ "config" := VBool false; "message" := VStr "Request failed";
       "request" := VRef 4; "response" := VRef 5 ]} in
  let w := World (error_store error ∅) [] in
  responseErrorHandler (C := demo) (VRef 1) w = (Normal (Value VUndef), w).
Proof.
  intros error w.
  apply (responseErrorHandler_undefined_iff (C := demo) w (VRef 1) w).
  vm_compute. repeat split.
Defined.

Lemma needReturnResponseErrorHandler_fallback_witness :
  let error : obj :=
    {[ "config" := VBool false; "message" := VStr "Request failed";
       "request" := VRef 4; "response" := VRef 5 ]} in
  let w := World (error_store error ∅) [] in
  needReturnResponseErrorHandler (C := demo) (VRef 1) w
  = (Normal (Rejected (VRef 1)), w).
Proof.
  intros error w.
  apply (needReturnResponseErrorHandler_fallback (C := demo) w (VRef 1));
    vm_compute; reflexivity.
Defined.

Lemma needReturnResponseErrorHandler_never_resolves_witness :
  let error : obj :=
    {[ "config" := VRef 3; "message" := VStr EmptyString; "request" := VRef 4;
       "response" := VRef 5 ]} in
  let w := World (error_store error ∅) [] in
  ∃ r w' e,
    needReturnResponseErrorHandler (C := demo) (VRef 1) w = (Normal r, w')
    ∧ r = Rejected e.
Proof.
  intros error w.
  destruct (needReturnResponseErrorHandler (C := demo) (VRef 1) w)
    as [c w'] eqn:Hrun.
  assert (c = Normal (Rejected (VRef 6))) as ->.
  { vm_compute in Hrun. injection Hrun as <- _. reflexivity. }
  destruct (needReturnResponseErrorHandler_never_resolves (C := demo)
              w (VRef 1) _ w' Hrun) as (e & He & _).
  exists (Rejected (VRef 6)), w', e. split; [reflexivity | exact He].
Defined.

Lemma responseErrorHandler_rejected_message_witness :
  let error : obj :=
    {[ "config" := VRef 3; "message" := VStr EmptyString; "request" := VRef 4;
       "response" := VRef 5 ]} in
  let w := World (error_store error {[ "handleError" := VBool true ]}) [] in
  ∃ w',
    responseErrorHandler (C := demo) (VRef 1) w = (Normal (Rejected (VRef 1)), w')
    ∧ field (store w) (VRef 1) "message" = VStr EmptyString
    ∧ truthy (field (store w') (VRef 1) "message") = true.
Proof.
  intros error w.
  destruct (responseErrorHandler (C := demo) (VRef 1) w) as [c w'] eqn:Hrun.
  assert (c = Normal (Rejected (VRef 1))) as ->.
  { vm_compute in Hrun. injection Hrun as <- _. reflexivity. }
  exists w'. split; [reflexivity|]. split; [vm_compute; reflexivity|].
  exact (responseErrorHandler_rejected_message (C := demo) w (VRef 1) (VRef 1) w' Hrun).
Defined.

Lemma responseErrorHandler_modifies_only_error_witness :
  let error : obj :=
    {[ "config" := VRef 3; "message" := VStr EmptyString; "request" := VRef 4;
       "response" := VRef 5 ]} in
  let config : obj := {[ "handleError" := VBool true ]} in
  let w := World (error_store error config) [] in
  store (snd (responseErrorHandler (C := demo) (VRef 1) w)) !! 3%positive
  = Some config.
Proof.
  intros error config w.
  apply (responseErrorHandler_modifies_only_error (C := demo) w 1 3 config);
    [discriminate | vm_compute; reflexivity].
Defined.
